(** * FormatCommand: the airbyte-ci format command

    A verification model of
    [pipelines/airbyte_ci/format/format_command.py].

    The command wraps a code formatter that runs in a container.  All the
    real work (directory snapshots, command execution, directory diffing,
    export) is done by the dagger engine, an external collaborator; the
    Python file only sequences those calls and classifies the outcome.

    Layout of this development:
    - directory trees: the data the engine works on;
    - the fragment of the Python runtime the file relies on (exceptions,
      truthiness, a trace of the calls made on loggers);
    - [dagger]: a model of the slice of the dagger API the file calls;
    - the class [FormatCommand], method by method;
    - sample collaborators;
    - the properties of the methods. *)

From Stdlib Require Import ZArith Ascii String.
From stdpp Require Import gmap strings list fin_maps.

Local Open Scope string_scope.
Local Open Scope Z_scope.

(* ===================================================================== *)
(** ** Files and directory trees *)
(* ===================================================================== *)

(** A regular file: its bytes and its modification time (seconds since the
    epoch). *)
Record File := mkFile { content : string; mtime : Z }.

Global Instance File_eq_dec : EqDecision File.
Proof. solve_decision. Defined.

(** A materialised directory tree: relative path ("a/b.txt") to file. *)
Abbreviation Tree := (gmap string File).

(** The part of a relative path before its first separator: the name under
    which the path shows up in a listing of the root. *)
Fixpoint top_level (p : string) : string :=
  match p with
  | EmptyString => EmptyString
  | String c rest => if Ascii.eqb c "/"%char then EmptyString else String c (top_level rest)
  end.

(** [strip_prefix pre s] is [Some rest] when [s = pre ++ rest]. *)
Fixpoint strip_prefix (pre s : string) : option string :=
  match pre, s with
  | EmptyString, _ => Some s
  | String a pre', String b s' => if Ascii.eqb a b then strip_prefix pre' s' else None
  | String _ _, EmptyString => None
  end.

(** A path argument of the engine, relative to a root: ["."] is the root
    itself, anything else names a sub-directory. *)
Definition rebase (dir p : string) : string :=
  if String.eqb dir "." then p else dir ++ "/" ++ p.

Definition unbase (dir p : string) : option string :=
  if String.eqb dir "." then Some p else strip_prefix (dir ++ "/") p.

(** The tree placed under [dir]. *)
Definition tree_under (dir : string) (t : Tree) : Tree :=
  list_to_map (prod_map (rebase dir) id <$> map_to_list t).

(** The sub-tree found at [dir]. *)
Definition tree_at (dir : string) (t : Tree) : Tree :=
  list_to_map (omap (λ kf, (λ k, (k, kf.2)) <$> unbase dir kf.1) (map_to_list t)).

(** Every file stamped with the same modification time. *)
Definition tree_with_timestamps (t : Tree) (ts : Z) : Tree :=
  (λ f, mkFile (content f) ts) <$> t.

(** What has to be written over [lower] to obtain [upper]: the files of
    [upper] that [lower] does not hold identically. *)
Definition tree_diff (lower upper : Tree) : Tree :=
  filter (λ kf, lower !! kf.1 ≠ Some kf.2) upper.

(** [src] written over [t] below [dir]; a file of [src] replaces the file
    of [t] at the same path. *)
Definition tree_overlay (t : Tree) (dir : string) (src : Tree) : Tree :=
  tree_under dir src ∪ t.

(** Names listed at the root of a tree. *)
Definition tree_entries (t : Tree) : list string :=
  remove_dups (top_level <$> (map_to_list t).*1).

(** Paths of all the files of a tree. *)
Definition tree_files (t : Tree) : list string := (map_to_list t).*1.

(** Two trees with the same paths and the same bytes at each path; the
    modification times may differ. *)
Definition same_contents (t1 t2 : Tree) : Prop :=
  content <$> t1 = content <$> t2.

(* ===================================================================== *)
(** ** The Python runtime fragment *)
(* ===================================================================== *)

(** [dagger.ExecError]: raised when a command run in a container exits
    with a non-zero status; it carries the streams captured so far. *)
Module ExecError.
Record t := mk { command : list string; exit_code : Z; stdout : string; stderr : string }.
End ExecError.

(** The exceptions that can travel through the methods of the command:
    the engine's execution error, any other error (named by its class),
    and [SystemExit], which [sys.exit] raises. *)
Inductive Exception :=
  | ExecErr (e : ExecError.t)
  | OtherErr (class_name : string)
  | SystemExit (code : Z).

(** Result of evaluating something that may raise. *)
Inductive Outcome (A : Type) :=
  | Val (a : A)
  | Raise (exc : Exception).
Arguments Val {A} a.
Arguments Raise {A} exc.

Inductive Level := DEBUG | INFO.

(** One call made on a [logging.Logger]. *)
Record LogRecord := mkLog { logger_name : string; level : Level; message : string }.

(** What an invocation can observe and change outside its own values: the
    files of the host working directory and the calls made on loggers. *)
Record World := mkWorld { host : Tree; log_records : list LogRecord }.

Definition set_host (h : Tree) (w : World) : World := mkWorld h (log_records w).
Definition add_log (r : LogRecord) (w : World) : World := mkWorld (host w) (log_records w ++ [r]).

(** Effectful code: from a world to an outcome and the world left behind.
    Effects performed before an exception is raised stay performed. *)
Definition M (A : Type) : Type := World → Outcome A * World.

Definition ret {A} (a : A) : M A := λ w, (Val a, w).
Definition raise {A} (exc : Exception) : M A := λ w, (Raise exc, w).
Definition bind {A B} (k : A → M B) (m : M A) : M B :=
  λ w, match m w with
       | (Val a, w') => k a w'
       | (Raise exc, w') => (Raise exc, w')
       end.

(** Sequencing is written [x ← m; k] and [m ;; k]. *)
Global Instance M_ret : MRet M := @ret.
Global Instance M_bind : MBind M := @bind.

(** [try: body / except dagger.ExecError as e: handler e]. *)
Definition try_except_ExecError {A} (body : M A) (handler : ExecError.t → M A) : M A :=
  λ w, match body w with
       | (Raise (ExecErr e), w') => handler e w'
       | r => r
       end.

(** [await] on a value that the engine computes on demand. *)
Definition await {A} (o : Outcome A) : M A :=
  match o with
  | Val a => ret a
  | Raise exc => raise exc
  end.

(** [sys.exit(code)]. *)
Definition sys_exit {A} (code : Z) : M A := raise (SystemExit code).

(** [logger.debug(msg)] and [logger.info(msg)]. *)
Definition log (name : string) (lvl : Level) (msg : string) : M unit :=
  λ w, (Val tt, add_log (mkLog name lvl msg) w).

(** What the interpreter provides and the file takes as given.
    [str_of_list l] is the text that an f-string puts for a list of
    strings, [str(l)]; it is Python's own rendering, which quotes and
    escapes each element as [repr] does. *)
Class Python := mkPython {
  str_of_list : list string → string
}.

(** Truth value of a list: non-empty. *)
Definition truthy {A} (l : list A) : bool :=
  match l with [] => false | _ :: _ => true end.

(* ===================================================================== *)
(** ** The dagger engine *)
(* ===================================================================== *)

Module dagger.

(** [dagger.Client].  The engine matches include and exclude patterns
    against paths with [matches]. *)
Record Client := mkClient { pipeline_name : string; matches : string → string → bool }.

(** [dagger.Directory] is a description the engine evaluates on demand:
    evaluation gives a tree or raises. *)
Definition Directory : Type := Outcome Tree.

Definition lift1 (f : Tree → Tree) (d : Directory) : Directory :=
  match d with
  | Val t => Val (f t)
  | Raise exc => Raise exc
  end.

Definition lift2 (f : Tree → Tree → Tree) (d1 d2 : Directory) : Directory :=
  match d1 with
  | Val t1 => lift1 (f t1) d2
  | Raise exc => Raise exc
  end.

(** Two directories that evaluate alike up to modification times: to trees
    with the same contents, or to the same exception. *)
Definition same_contents_dir (d1 d2 : Directory) : Prop :=
  match d1, d2 with
  | Val t1, Val t2 => same_contents t1 t2
  | Raise e1, Raise e2 => e1 = e2
  | _, _ => False
  end.

(** A file is kept when the include list is empty or one of its patterns
    matches, and no exclude pattern matches. *)
Definition selected (c : Client) (include exclude : list string) (p : string) : bool :=
  (negb (truthy include) || existsb (λ pat, matches c pat p) include)
  && negb (existsb (λ pat, matches c pat p) exclude).

(** The files below [path] of the host tree [h] that the patterns select. *)
Definition host_files (c : Client) (path : string) (include exclude : list string)
    (h : Tree) : Tree :=
  filter (λ kf, selected c include exclude kf.1 = true) (tree_at path h).

(** [client.host().directory(path, include=..., exclude=...)]: the selected
    files of the host, as they are when the call is made.  (The engine
    reads them when the directory is first evaluated; an invocation writes
    the host only in its export, after every evaluation.) *)
Definition host_directory (c : Client) (path : string) (include exclude : list string)
  : M Directory :=
  λ w, (Val (Val (host_files c path include exclude (host w))), w).

(** [d.with_directory(path, src)]. *)
Definition with_directory (d : Directory) (path : string) (src : Directory) : Directory :=
  lift2 (λ t s, tree_overlay t path s) d src.

(** [d.with_timestamps(ts)]. *)
Definition with_timestamps (d : Directory) (ts : Z) : Directory :=
  lift1 (λ t, tree_with_timestamps t ts) d.

(** [d.diff(other)]. *)
Definition diff (d other : Directory) : Directory :=
  lift2 tree_diff d other.

(** [await d]: forces the evaluation and gives the directory back. *)
Definition sync (d : Directory) : M Directory :=
  t ← await d; ret (Val t : Directory).

(** [await d.entries()]. *)
Definition entries (d : Directory) : M (list string) :=
  t ← await d; ret (tree_entries t).

(** [await d.export(path)]: writes the directory over the host files
    below [path]. *)
Definition export (d : Directory) (path : string) : M bool :=
  t ← await d;
  (λ w, (Val true, set_host (tree_overlay (host w) path t) w)) : M bool.

(** A container on which a command has been queued with [with_exec]:
    what reading its directories and its streams gives once the engine
    runs it. *)
Record ExecContainer := mkExec {
  directory : string → Directory;
  stdout : Outcome string;
  stderr : Outcome string
}.

(** [dagger.Container] as the format command uses it: something that
    accepts a command.  [with_exec args skip_entrypoint] runs nothing
    yet. *)
Record Container := mkContainer {
  with_exec : list string → bool → ExecContainer
}.

End dagger.

(* ===================================================================== *)
(** ** Helpers of the pipelines package *)
(* ===================================================================== *)

(** Modelled from the spec: [pipelines.models.steps.StepStatus] is not
    part of the file; the spec gives a result the two statuses below. *)
Inductive StepStatus := SUCCESS | FAILURE.

Global Instance StepStatus_eq_dec : EqDecision StepStatus.
Proof. solve_decision. Defined.

(** Modelled from the spec: [pipelines.helpers.utils.sh_dash_c] is not part
    of the file; the spec has the commands run as a single shell invocation,
    joined with [&&]. *)
Definition sh_dash_c (lines : list string) : list string :=
  ["sh"; "-c"; String.concat " && " lines].

(** Modelled from the spec: [pipelines.airbyte_ci.format.actions.list_files_in_directory]
    is not part of the file; the spec has it give the list of the file
    paths of the directory it is handed. *)
Definition list_files_in_directory (dagger_client : dagger.Client) (directory : dagger.Directory)
  : M (list string) :=
  t ← await directory; ret (tree_files t).

(** [click.Context]: only [ctx.obj["quiet"]] is read. *)
Record ClickContext := mkContext { quiet : bool }.

(** [LogOptions(quiet=...)]. *)
Record LogOptions := mkLogOptions { opt_quiet : bool }.

(** [ClickPipelineContext]: hands out the dagger client of a pipeline. *)
Record ClickPipelineContext := mkPipelineContext {
  get_dagger_client : string → dagger.Client
}.

(** [pipelines.airbyte_ci.format.configuration.Formatter]: an enumeration
    whose members are told apart by their string [value]; which members
    exist is not part of the file. *)
Record Formatter := mkFormatter { value : string }.

Global Instance Formatter_eq_dec : EqDecision Formatter.
Proof. solve_decision. Defined.

Global Instance Formatter_countable : Countable Formatter.
Proof. by apply (inj_countable' value mkFormatter); intros []. Defined.

(** [pipelines.airbyte_ci.format.consts]: the values of the constants are
    not part of the file. *)
Class Consts := mkConsts {
  DEFAULT_FORMAT_IGNORE_LIST : list string;
  REPO_MOUNT_PATH : string;
  WARM_UP_INCLUSIONS : gmap Formatter (list string)
}.

(** *** The class *)

(** The attributes of a [FormatCommand]; [name] and [help] are those of
    [click.Command]. *)
Record FormatCommand := mkFormatCommand {
  name : string;
  formatter : Formatter;
  file_filter : list string;
  get_format_container_fn : dagger.Client → dagger.Directory → dagger.Container;
  format_commands : list string;
  export_formatted_code : bool;
  help : string;
  enable_logging : bool;
  exit_on_failure : bool;
  logger : string
}.

Definition set_help (h : string) (self : FormatCommand) : FormatCommand :=
  mkFormatCommand (name self) (formatter self) (file_filter self)
    (get_format_container_fn self) (format_commands self)
    (export_formatted_code self) h (enable_logging self)
    (exit_on_failure self) (logger self).

Definition set_enable_logging (b : bool) (self : FormatCommand) : FormatCommand :=
  mkFormatCommand (name self) (formatter self) (file_filter self)
    (get_format_container_fn self) (format_commands self)
    (export_formatted_code self) (help self) b
    (exit_on_failure self) (logger self).

Definition set_exit_on_failure (b : bool) (self : FormatCommand) : FormatCommand :=
  mkFormatCommand (name self) (formatter self) (file_filter self)
    (get_format_container_fn self) (format_commands self)
    (export_formatted_code self) (help self) (enable_logging self)
    b (logger self).

(** Modelled from the spec: [pipelines.models.steps.CommandResult] is not
    part of the file; the spec gives it a status, the captured output
    and error text, an optional output artifact and optional exception
    information.  An argument the caller leaves out is [None]. *)
Record CommandResult := mkCommandResult {
  command : FormatCommand;
  status : StepStatus;
  stdout : option string;
  stderr : option string;
  exc_info : option Exception;
  output_artifact : option dagger.Directory
}.

(** The logging of the pipelines package.  [main_logger] is the name of
    [pipelines.main_logger], a logger that the file imports.
    Modelled from the spec: [pipelines.helpers.cli.log_command_results] is
    not part of the file; the spec has it format and emit a readable
    summary of the results.  [summary] is the formatting. *)
Class Reporter := mkReporter {
  main_logger : string;
  summary : LogOptions → list CommandResult → string
}.

Section methods.

Context {K : Consts} {P : Python} {R : Reporter}.

Definition log_command_results (ctx : ClickContext) (command_results : list CommandResult)
    (logger_name : string) (options : LogOptions) : M unit :=
  log logger_name INFO (summary options command_results).

(** [get_help_message] *)
Definition get_help_message (self : FormatCommand) : string :=
  let message := "Run " ++ value (formatter self) ++ " formatter" in
  if export_formatted_code self
  then message ++ ", will fix any failures."
  else message ++ ".".

(** [__init__]: [enable_logging] and [exit_on_failure] default to [True]
    at the call. *)
Definition init (formatter : Formatter) (file_filter : list string)
    (get_format_container_fn : dagger.Client → dagger.Directory → dagger.Container)
    (format_commands : list string) (export_formatted_code : bool)
    (enable_logging exit_on_failure : bool) : FormatCommand :=
  let self := mkFormatCommand (value formatter) formatter file_filter
                get_format_container_fn format_commands export_formatted_code
                EmptyString enable_logging exit_on_failure
                ("Format " ++ value formatter) in
  set_help (get_help_message self) self.

(** [get_dir_to_format] *)
Definition get_dir_to_format (self : FormatCommand) (dagger_client : dagger.Client)
  : M dagger.Directory :=
  dagger.host_directory dagger_client "." (file_filter self) DEFAULT_FORMAT_IGNORE_LIST.

(** [run_format] *)
Definition run_format (self : FormatCommand) (dagger_client : dagger.Client)
    (container : dagger.Container) (format_commands : list string)
    (not_formatted_code : dagger.Directory)
  : M (dagger.Directory * string * string) :=
  let format_container := dagger.with_exec container (sh_dash_c format_commands) true in
  let formatted_directory := dagger.directory format_container REPO_MOUNT_PATH in
  not_formatted_code ←
    match WARM_UP_INCLUSIONS !! formatter self with
    | Some warmup_inclusion =>
        if truthy warmup_inclusion then
          warmup_dir ← dagger.host_directory dagger_client "." warmup_inclusion
                          DEFAULT_FORMAT_IGNORE_LIST;
          ret (dagger.with_directory not_formatted_code "." warmup_dir)
        else ret not_formatted_code
    | None => ret not_formatted_code
    end;
  dir_with_modified_files ←
    dagger.sync (dagger.diff (dagger.with_timestamps not_formatted_code 0)
                             (dagger.with_timestamps formatted_directory 0));
  out ← await (dagger.stdout format_container);
  err ← await (dagger.stderr format_container);
  ret (dir_with_modified_files, out, err).

(** The snapshot that [run_format] hands to the diff as its left side,
    for a host tree [h]: the snapshot it received, with the warm-up files
    of the formatter written over it when the formatter has some. *)
Definition pre_format_snapshot (self : FormatCommand) (dagger_client : dagger.Client)
    (not_formatted_code : dagger.Directory) (h : Tree) : dagger.Directory :=
  match WARM_UP_INCLUSIONS !! formatter self with
  | Some warmup_inclusion =>
      if truthy warmup_inclusion
      then dagger.with_directory not_formatted_code "."
             (Val (dagger.host_files dagger_client "." warmup_inclusion
                     DEFAULT_FORMAT_IGNORE_LIST h))
      else not_formatted_code
  | None => not_formatted_code
  end.

(** [get_format_command_result] *)
Definition get_format_command_result (self : FormatCommand) (dagger_client : dagger.Client)
    (container : dagger.Container) (not_formatted_code : dagger.Directory)
  : M CommandResult :=
  try_except_ExecError
    ('(dir_with_modified_files, out, err) ←
        run_format self dagger_client container (format_commands self) not_formatted_code;
     listing ← dagger.entries dir_with_modified_files;
     if truthy listing then
       modified_files ← list_files_in_directory dagger_client dir_with_modified_files;
       log (logger self) DEBUG ("Modified files: " ++ str_of_list modified_files);;
       ret (mkCommandResult self FAILURE (Some out) (Some err) None
              (Some dir_with_modified_files))
     else
       ret (mkCommandResult self SUCCESS (Some out) (Some err) None None))
    (λ e, ret (mkCommandResult self FAILURE (Some (ExecError.stdout e))
                 (Some (ExecError.stderr e)) (Some (ExecErr e)) None)).

(** [invoke]; the decorators only supply [click_pipeline_context] and a
    reporting scope. *)
Definition invoke (self : FormatCommand) (ctx : ClickContext)
    (click_pipeline_context : ClickPipelineContext) : M CommandResult :=
  let dagger_client :=
    get_dagger_client click_pipeline_context ("Format " ++ value (formatter self)) in
  dir_to_format ← get_dir_to_format self dagger_client;
  let container := get_format_container_fn self dagger_client dir_to_format in
  command_result ← get_format_command_result self dagger_client container dir_to_format;
  match output_artifact command_result with
  | Some formatted_code_dir =>
      if export_formatted_code self
      then _ ← dagger.export formatted_code_dir "."; ret tt
      else ret tt
  | None => ret tt
  end;;
  (if enable_logging self
   then log_command_results ctx [command_result] main_logger (mkLogOptions (quiet ctx))
   else ret tt);;
  (if bool_decide (status command_result = FAILURE) && exit_on_failure self
   then sys_exit 1
   else ret tt);;
  ret command_result.

End methods.

(** *** The two methods that assign to an attribute

    [disable_logging] and [dont_exit_on_failure] change the object they are
    called on and hand that same object back.  To tell "the same object"
    from "a copy", they are modelled on a store of command objects: [self]
    is a reference, and the store maps a reference to the attributes of the
    object it denotes.  The other methods only read [self]; they take its
    attributes as they are at the call. *)

Abbreviation Objects := (gmap positive FormatCommand).

(** [disable_logging] *)
Definition disable_logging (self : positive) (objs : Objects) : positive * Objects :=
  (self, alter (set_enable_logging false) self objs).

(** [dont_exit_on_failure] *)
Definition dont_exit_on_failure (self : positive) (objs : Objects) : positive * Objects :=
  (self, alter (set_exit_on_failure false) self objs).

(* ===================================================================== *)
(** ** Sample invocations *)
(* ===================================================================== *)

(** Concrete collaborators on which the statements below are exercised. *)
Module sample.

(** Patterns that are plain file names. *)
Definition client : dagger.Client := dagger.mkClient "Format python" String.eqb.

Definition python : Formatter := mkFormatter "python".
Definition js : Formatter := mkFormatter "js".

Definition consts : Consts :=
  mkConsts [".git"] "/src" {[ python := ["pyproject.toml"] ]}.

Definition reporter : Reporter :=
  mkReporter "airbyte-ci" (λ options results, "Summary of commands results").

(** Python's rendering of a list of ASCII strings: each element between
    single quotes, or between double quotes when it holds a single quote
    and no double quote; the quote in use and the backslash escaped,
    tab, line feed and carriage return as [\t], [\n], [\r], any other
    control character as [\x] and two hexadecimal digits. *)
Definition single_quote : ascii := ascii_of_nat 39.
Definition double_quote : ascii := ascii_of_nat 34.
Definition backslash : ascii := ascii_of_nat 92.

Fixpoint contains (c : ascii) (s : string) : bool :=
  match s with
  | EmptyString => false
  | String d rest => Ascii.eqb c d || contains c rest
  end.

Definition hex_digit (n : nat) : ascii :=
  nth n (list_ascii_of_string "0123456789abcdef") "0"%char.

Definition escape_char (q c : ascii) : string :=
  let n := nat_of_ascii c in
  if Ascii.eqb c q || Ascii.eqb c backslash then String backslash (String c EmptyString)
  else if (n =? 9)%nat then String backslash "t"
  else if (n =? 10)%nat then String backslash "n"
  else if (n =? 13)%nat then String backslash "r"
  else if (n <? 32)%nat || (n =? 127)%nat
       then String backslash
              (String "x"%char
                 (String (hex_digit (n / 16)) (String (hex_digit (n mod 16)) EmptyString)))
  else String c EmptyString.

Fixpoint escape (q : ascii) (s : string) : string :=
  match s with
  | EmptyString => EmptyString
  | String c rest => escape_char q c ++ escape q rest
  end.

Definition repr (s : string) : string :=
  let q := if contains single_quote s && negb (contains double_quote s)
           then double_quote else single_quote in
  String q (escape q s ++ String q EmptyString).

Definition interpreter : Python :=
  mkPython (λ l, "[" ++ String.concat ", " (repr <$> l) ++ "]").

(** A working directory with one source file, a project file and
    version-control data. *)
Definition host_tree : Tree :=
  {[ "a.txt" := mkFile "x=1" 1700000000;
     "pyproject.toml" := mkFile "[tool]" 1600000000;
     ".git" := mkFile "ref" 1500000000 ]}.

Definition world : World := mkWorld host_tree [].

(** A formatter that finds nothing to change: the mounted files come back
    with fresh modification times only. *)
Definition idle_container (c : dagger.Client) (d : dagger.Directory) : dagger.Container :=
  dagger.mkContainer (λ args skip_entrypoint,
    dagger.mkExec (λ path, dagger.with_timestamps d 1700000999)
                  (Val "All done!") (Val EmptyString)).

(** A formatter that rewrites [a.txt]. *)
Definition rewriting_container (c : dagger.Client) (d : dagger.Directory) : dagger.Container :=
  dagger.mkContainer (λ args skip_entrypoint,
    dagger.mkExec (λ path, dagger.lift1 (λ t, <["a.txt" := mkFile "x = 1" 1700000999]> t) d)
                  (Val "reformatted a.txt") (Val EmptyString)).

(** A formatter whose command exits with status 127. *)
Definition crash : ExecError.t :=
  ExecError.mk ["sh"; "-c"; "fmt ."] 127 EmptyString "sh: fmt: not found".

Definition crashing_container (c : dagger.Client) (d : dagger.Directory) : dagger.Container :=
  dagger.mkContainer (λ args skip_entrypoint,
    dagger.mkExec (λ path, Raise (ExecErr crash))
                  (Raise (ExecErr crash)) (Raise (ExecErr crash))).

(** An engine that loses its session while the command runs. *)
Definition broken_container (c : dagger.Client) (d : dagger.Directory) : dagger.Container :=
  dagger.mkContainer (λ args skip_entrypoint,
    dagger.mkExec (λ path, Raise (OtherErr "QueryError"))
                  (Raise (OtherErr "QueryError")) (Raise (OtherErr "QueryError"))).

Definition command (f : Formatter)
    (fn : dagger.Client → dagger.Directory → dagger.Container) (export : bool)
  : FormatCommand :=
  init f ["a.txt"] fn ["fmt ."] export true true.

(** What [get_dir_to_format] gives on [world] for the filter [a.txt]. *)
Definition snapshot : dagger.Directory :=
  Val (dagger.host_files client "." ["a.txt"] [".git"] host_tree).

(** The command of the formatter that rewrites [a.txt], exporting, and the
    result it is expected to build. *)
Definition fixing : FormatCommand := command js rewriting_container true.

Definition changes : Tree := {[ "a.txt" := mkFile "x = 1" 0 ]}.

Definition failure : CommandResult :=
  mkCommandResult fixing FAILURE (Some "reformatted a.txt") (Some EmptyString) None
    (Some (Val changes)).

Definition debug_record : LogRecord :=
  mkLog "Format js" DEBUG "Modified files: ['a.txt']".

(** The command of the formatter that changes nothing, not exporting. *)
Definition checking : FormatCommand := command js idle_container false.

Definition success : CommandResult :=
  mkCommandResult checking SUCCESS (Some "All done!") (Some EmptyString) None None.

(** The command of the formatter that is not installed. *)
Definition crashing : FormatCommand := command js crashing_container true.

(** A formatter with warm-up files, in a container that holds them next to
    the files to format and changes nothing. *)
Definition warmed_container (c : dagger.Client) (d : dagger.Directory) : dagger.Container :=
  dagger.mkContainer (λ args skip_entrypoint,
    dagger.mkExec
      (λ path, dagger.with_timestamps
                 (dagger.with_directory d "."
                    (Val {[ "pyproject.toml" := mkFile "[tool]" 1600000000 ]}))
                 1700000999)
      (Val "All done!") (Val EmptyString)).

Definition warming : FormatCommand := command python warmed_container false.

(** A store with one command object. *)
Definition objects : Objects := {[ 1%positive := fixing ]}.

(** A formatter that rewrites [a.txt] and whose output stream can then not
    be read: the command is reported as failed at that point. *)
Definition stream_failing_container (c : dagger.Client) (d : dagger.Directory)
  : dagger.Container :=
  dagger.mkContainer (λ args skip_entrypoint,
    dagger.mkExec (λ path, dagger.lift1 (λ t, <["a.txt" := mkFile "x = 1" 1700000999]> t) d)
                  (Raise (ExecErr crash)) (Val EmptyString)).

Definition stream_failing : FormatCommand := command js stream_failing_container true.

(** The command of an engine that loses its session. *)
Definition broken : FormatCommand := command js broken_container true.







Definition ctx : ClickContext := mkContext false.
Definition pipeline_context : ClickPipelineContext := mkPipelineContext (λ _, client).

End sample.

(* ===================================================================== *)
(** ** Directory trees: basic facts *)
(* ===================================================================== *)

Lemma remove_dups_nil_iff {A} `{EqDecision A} (l : list A) :
  remove_dups l = [] ↔ l = [].
Proof.
  split; [|by intros ->].
  destruct l as [|x l]; [done|]. intros E.
  assert (x ∈ remove_dups (x :: l)) as Hx by (apply elem_of_remove_dups; left).
  rewrite E in Hx. by apply elem_of_nil in Hx.
Qed.

(** A tree lists nothing at its root exactly when it holds no file. *)
Lemma tree_entries_nil (t : Tree) : tree_entries t = [] ↔ t = ∅.
Proof.
  unfold tree_entries. rewrite remove_dups_nil_iff, <- map_to_list_empty_iff.
  split; [|by intros ->].
  intros E. by apply fmap_nil_inv, fmap_nil_inv in E.
Qed.

Lemma truthy_tree_entries (t : Tree) :
  truthy (tree_entries t) = bool_decide (t ≠ ∅).
Proof.
  destruct (tree_entries t) as [|x l] eqn:E.
  - apply tree_entries_nil in E. subst t. by rewrite bool_decide_false by auto.
  - simpl. rewrite bool_decide_true; [done|].
    intros ->. by rewrite (proj2 (tree_entries_nil ∅)) in E.
Qed.






Lemma tree_under_dot (t : Tree) : tree_under "." t = t.
Proof.
  unfold tree_under.
  replace (prod_map (rebase ".") id <$> map_to_list t) with (map_to_list t).
  - apply list_to_map_to_list.
  - induction (map_to_list t) as [|[k f] l IH]; [done|].
    by rewrite fmap_cons, <- IH.
Qed.

Lemma tree_at_dot (t : Tree) : tree_at "." t = t.
Proof.
  unfold tree_at.
  replace (omap (λ kf : string * File, (λ k, (k, kf.2)) <$> unbase "." kf.1) (map_to_list t))
    with (map_to_list t).
  - apply list_to_map_to_list.
  - induction (map_to_list t) as [|[k f] l IH]; [done|].
    cbn [omap list_omap]. change (unbase "." (k, f).1) with (Some k).
    cbn [fmap option_fmap option_map]. by rewrite <- IH.
Qed.

Lemma tree_overlay_dot (t src : Tree) : tree_overlay t "." src = src ∪ t.
Proof. unfold tree_overlay. by rewrite tree_under_dot. Qed.

Lemma lookup_tree_with_timestamps (t : Tree) (ts : Z) (p : string) :
  tree_with_timestamps t ts !! p = (λ f, mkFile (content f) ts) <$> t !! p.
Proof. unfold tree_with_timestamps. apply lookup_fmap. Qed.

Lemma lookup_tree_diff (lower upper : Tree) (p : string) :
  tree_diff lower upper !! p =
    match upper !! p with
    | Some f => if decide (lower !! p = Some f) then None else Some f
    | None => None
    end.
Proof.
  unfold tree_diff. destruct (upper !! p) as [f|] eqn:Hu.
  - destruct (decide (lower !! p = Some f)) as [Hl|Hl].
    + apply map_lookup_filter_None. right. intros f' Hf'. simpl.
      rewrite Hu in Hf'. injection Hf' as <-. tauto.
    + apply map_lookup_filter_Some. by split.
  - apply map_lookup_filter_None. by left.
Qed.

(** Stamped trees depend on the bytes only. *)
Lemma tree_with_timestamps_contents (t1 t2 : Tree) (ts : Z) :
  same_contents t1 t2 → tree_with_timestamps t1 ts = tree_with_timestamps t2 ts.
Proof.
  unfold same_contents, tree_with_timestamps. intros E.
  change (λ f : File, mkFile (content f) ts) with ((λ c, mkFile c ts) ∘ content).
  by rewrite !(map_fmap_compose content), E.
Qed.

(** After stamping, a file is reported exactly when its bytes are new. *)
Lemma lookup_tree_diff_stamped (lower upper : Tree) (ts : Z) (p : string) :
  tree_diff (tree_with_timestamps lower ts) (tree_with_timestamps upper ts) !! p =
    match upper !! p with
    | Some f =>
        if decide (content <$> lower !! p = Some (content f))
        then None else Some (mkFile (content f) ts)
    | None => None
    end.
Proof.
  rewrite lookup_tree_diff, !lookup_tree_with_timestamps.
  destruct (upper !! p) as [f|]; [|done]. simpl.
  destruct (lower !! p) as [g|]; simpl.
  - destruct (decide (Some (mkFile (content g) ts) = Some (mkFile (content f) ts)))
      as [E1|E1], (decide (Some (content g) = Some (content f))) as [E2|E2];
      try done; exfalso.
    + apply E2. by injection E1 as ->.
    + apply E1. by injection E2 as ->.
  - repeat case_decide; done.
Qed.

Lemma same_contents_filter (P : string * File → Prop) `{∀ x, Decision (P x)}
    (t1 t2 : Tree) :
  (∀ k f g, P (k, f) ↔ P (k, g)) →
  same_contents t1 t2 → same_contents (filter P t1) (filter P t2).
Proof.
  unfold same_contents. intros Hkey E. apply map_eq. intros p.
  rewrite !lookup_fmap, !map_lookup_filter.
  assert (content <$> t1 !! p = content <$> t2 !! p) as Ep
    by (by rewrite <- !lookup_fmap, E).
  destruct (t1 !! p) as [f1|], (t2 !! p) as [f2|]; simpl in *; try done.
  injection Ep as Ep.
  destruct (decide (P (p, f1))) as [H1|H1].
  - rewrite !option_guard_True; [|by apply (Hkey p f1 f2)|done]. simpl. by rewrite Ep.
  - rewrite !option_guard_False; [done| |done]. intros H2. by apply H1, (Hkey p f1 f2).
Qed.

Lemma same_contents_union (s1 s2 t1 t2 : Tree) :
  same_contents s1 s2 → same_contents t1 t2 → same_contents (s1 ∪ t1) (s2 ∪ t2).
Proof.
  unfold same_contents. intros Es Et. by rewrite !map_fmap_union, Es, Et.
Qed.

(* ===================================================================== *)
(** ** The methods, equation by equation *)
(* ===================================================================== *)

Section properties.

Context {K : Consts} {P : Python} {R : Reporter}.

Implicit Types (self : FormatCommand) (w : World) (t : Tree).

(** [run_format] changes nothing in the world; it evaluates the diff, then
    the output stream, then the error stream, and the first of the three
    that fails decides the exception. *)
Lemma run_format_unfold self client container cmds pre w :
  run_format self client container cmds pre w =
    let fc := dagger.with_exec container (sh_dash_c cmds) true in
    match dagger.diff
            (dagger.with_timestamps (pre_format_snapshot self client pre (host w)) 0)
            (dagger.with_timestamps (dagger.directory fc REPO_MOUNT_PATH) 0)
    with
    | Raise exc => (Raise exc, w)
    | Val t =>
        match dagger.stdout fc with
        | Raise exc => (Raise exc, w)
        | Val out =>
            match dagger.stderr fc with
            | Raise exc => (Raise exc, w)
            | Val err => (Val (Val t, out, err), w)
            end
        end
    end.
Proof.
  unfold run_format, pre_format_snapshot. cbv zeta.
  set (fc := dagger.with_exec container (sh_dash_c cmds) true).
  destruct (WARM_UP_INCLUSIONS !! formatter self) as [incl|]; [destruct (truthy incl)|];
    unfold mbind, M_bind, bind, dagger.host_directory, dagger.sync, await, ret, raise;
    cbn beta iota;
    match goal with
    | |- context [dagger.diff ?a ?b] => destruct (dagger.diff a b)
    end; try reflexivity;
    unfold mbind, M_bind, bind, ret, raise; cbn beta iota;
    destruct (dagger.stdout fc); try reflexivity;
    destruct (dagger.stderr fc); reflexivity.
Qed.

Lemma run_format_world self client container cmds pre w o w' :
  run_format self client container cmds pre w = (o, w') → w' = w.
Proof.
  rewrite run_format_unfold. cbv zeta. intros E.
  repeat match type of E with
         | context [match ?x with _ => _ end] => destruct x
         end; by injection E.
Qed.

(** The directory that [run_format] returns has been evaluated. *)
Lemma run_format_returns self client container cmds pre w d out err w' :
  run_format self client container cmds pre w = (Val (d, out, err), w') →
  let fc := dagger.with_exec container (sh_dash_c cmds) true in
  w' = w ∧ dagger.stdout fc = Val out ∧ dagger.stderr fc = Val err ∧
  ∃ t, d = Val t ∧
       dagger.diff
         (dagger.with_timestamps (pre_format_snapshot self client pre (host w)) 0)
         (dagger.with_timestamps (dagger.directory fc REPO_MOUNT_PATH) 0) = Val t.
Proof.
  rewrite run_format_unfold. cbv zeta. intros E.
  destruct (dagger.diff _ _) as [t|]; [|done].
  destruct (dagger.stdout _) as [o|]; [|done].
  destruct (dagger.stderr _) as [e|]; [|done].
  injection E as <- <- <- <-. eauto 10.
Qed.

(** [get_format_command_result], by the outcome of [run_format]. *)
Lemma get_format_command_result_unfold self client container pre w :
  get_format_command_result self client container pre w =
    match run_format self client container (format_commands self) pre w with
    | (Val (Val t, out, err), w1) =>
        if bool_decide (t ≠ ∅)
        then (Val (mkCommandResult self FAILURE (Some out) (Some err) None (Some (Val t))),
              add_log (mkLog (logger self) DEBUG
                         ("Modified files: " ++ str_of_list (tree_files t))) w1)
        else (Val (mkCommandResult self SUCCESS (Some out) (Some err) None None), w1)
    | (Val (Raise exc, _, _), w1) | (Raise exc, w1) =>
        match exc with
        | ExecErr e =>
            (Val (mkCommandResult self FAILURE (Some (ExecError.stdout e))
                    (Some (ExecError.stderr e)) (Some (ExecErr e)) None), w1)
        | _ => (Raise exc, w1)
        end
    end.
Proof.
  unfold get_format_command_result, try_except_ExecError, mbind, M_bind, bind.
  destruct (run_format _ _ _ _ _ _) as [[[[d out] err]|exc] w1].
  - destruct d as [t|exc]; unfold dagger.entries, await, mbind, M_bind, bind, ret, raise.
    + rewrite truthy_tree_entries. case_bool_decide.
      * unfold list_files_in_directory, await, mbind, M_bind, bind, ret, log. reflexivity.
      * reflexivity.
    + by destruct exc.
  - by destruct exc.
Qed.

(* ===================================================================== *)
(** ** Classifying the outcome: [get_format_command_result] *)
(* ===================================================================== *)

(** C1.  When the commands run without an execution error and stamping both
    trees with time 0 leaves nothing to report between the pre-format
    snapshot and the formatted directory, the result has status SUCCESS, no
    output artifact, and the output and error text read from the container;
    nothing is logged. *)
Theorem unchanged_tree_gives_success self client container pre w tpre tpost out err :
  let fc := dagger.with_exec container (sh_dash_c (format_commands self)) true in
  pre_format_snapshot self client pre (host w) = Val tpre →
  dagger.directory fc REPO_MOUNT_PATH = Val tpost →
  dagger.stdout fc = Val out →
  dagger.stderr fc = Val err →
  tree_diff (tree_with_timestamps tpre 0) (tree_with_timestamps tpost 0) = ∅ →
  get_format_command_result self client container pre w =
    (Val (mkCommandResult self SUCCESS (Some out) (Some err) None None), w).
Proof.
  intros fc Hpre Hpost Hout Herr Hdiff.
  rewrite get_format_command_result_unfold, run_format_unfold. cbv zeta. fold fc.
  rewrite Hpre, Hpost, Hout, Herr. cbn [dagger.with_timestamps dagger.diff dagger.lift1 dagger.lift2].
  rewrite Hdiff. by rewrite bool_decide_false by auto.
Qed.


(** C3.  A result carries an output artifact exactly when its status is
    FAILURE and [run_format] returned a directory that holds a file, and the
    artifact is then that directory; a SUCCESS result carries none, and
    neither does the FAILURE result built from an execution error. *)
Theorem output_artifact_iff_diff_failure self client container pre w r w' :
  get_format_command_result self client container pre w = (Val r, w') →
  (∀ d, output_artifact r = Some d ↔
        status r = FAILURE ∧
        ∃ t out err w1,
          run_format self client container (format_commands self) pre w
            = (Val (d, out, err), w1) ∧ d = Val t ∧ t ≠ ∅)
  ∧ (status r = SUCCESS → output_artifact r = None)
  ∧ (∀ e w1,
       run_format self client container (format_commands self) pre w
         = (Raise (ExecErr e), w1) →
       status r = FAILURE ∧ output_artifact r = None ∧ exc_info r = Some (ExecErr e)).
Proof.
  rewrite get_format_command_result_unfold.
  destruct (run_format _ _ _ _ _ _) as [[[[[t|exc] out] err]|exc] w1].
  - case_bool_decide as Ht; intros [= <- <-]; cbn [output_artifact status exc_info].
    + split; [|split; [done|done]].
      intros d; split.
      * intros [= <-]. split; [done|]. by exists t, out, err, w1.
      * intros [_ (t' & out' & err' & w1' & [= <- <- <- <-] & _)]. done.
    + split; [|split; [done|done]].
      intros d; split; [done|]. intros [? _]. done.
  - destruct exc; try done. intros [= <- <-]; cbn [output_artifact status exc_info].
    split; [|split; [done|done]].
    intros d; split; [done|].
    intros [_ (t' & out' & err' & w1' & [= <- <- <- <-] & ? & _)]. done.
  - destruct exc; try done. intros [= <- <-]; cbn [output_artifact status exc_info].
    split; [|split; [done|]].
    + intros d; split; [done|]. intros [_ (t' & out' & err' & w1' & ? & _)]. done.
    + by intros e' w1' [= <- <-].
Qed.

(** C4.  When running the format commands raises, an execution error is
    turned into a FAILURE result with the output and error text the error
    carries and no output artifact; any other exception leaves
    [get_format_command_result] as it entered it. *)
Theorem exec_error_is_caught_others_propagate self client container pre w exc w1 :
  run_format self client container (format_commands self) pre w = (Raise exc, w1) →
  get_format_command_result self client container pre w =
    match exc with
    | ExecErr e =>
        (Val (mkCommandResult self FAILURE (Some (ExecError.stdout e))
                (Some (ExecError.stderr e)) (Some (ExecErr e)) None), w1)
    | _ => (Raise exc, w1)
    end.
Proof.
  intros Hrun. by rewrite get_format_command_result_unfold, Hrun.
Qed.

(** A result never carries a directory that is still to be evaluated, and
    building it leaves the host files alone. *)
Lemma get_format_command_result_artifact self client container pre w r w' d :
  get_format_command_result self client container pre w = (Val r, w') →
  output_artifact r = Some d → ∃ t, d = Val t.
Proof.
  rewrite get_format_command_result_unfold.
  destruct (run_format _ _ _ _ _ _) as [[[[[t|exc] out] err]|exc] w1].
  - case_bool_decide; intros [= <- <-]; cbn [output_artifact]; [|done].
    intros [= <-]. by exists t.
  - destruct exc; try done. by intros [= <- <-].
  - destruct exc; try done. by intros [= <- <-].
Qed.

Lemma get_format_command_result_host self client container pre w o w' :
  get_format_command_result self client container pre w = (o, w') → host w' = host w.
Proof.
  rewrite get_format_command_result_unfold.
  destruct (run_format _ _ _ _ _ _) as [[[[[t|exc] out] err]|exc] w1] eqn:Hrun;
    apply run_format_world in Hrun; subst w1.
  - case_bool_decide; by intros [= <- <-].
  - destruct exc; by intros [= <- <-].
  - destruct exc; by intros [= <- <-].
Qed.

(* ===================================================================== *)
(** ** Export, logging and exit: [invoke] *)
(* ===================================================================== *)

(** [invoke], by the outcome of [get_format_command_result]: the artifact is
    written over the host files when the export flag is set, the summary is
    logged when logging is enabled, and the exit check comes last. *)
Lemma invoke_unfold self ctx pc w :
  let client := get_dagger_client pc ("Format " ++ value (formatter self)) in
  let dir : dagger.Directory :=
    Val (dagger.host_files client "." (file_filter self) DEFAULT_FORMAT_IGNORE_LIST (host w)) in
  let container := get_format_container_fn self client dir in
  invoke self ctx pc w =
    match get_format_command_result self client container dir w with
    | (Raise exc, w1) => (Raise exc, w1)
    | (Val r, w1) =>
        let w2 :=
          match output_artifact r with
          | Some (Val t) =>
              if export_formatted_code self then set_host (t ∪ host w1) w1 else w1
          | _ => w1
          end in
        let w3 :=
          if enable_logging self
          then add_log (mkLog main_logger INFO (summary (mkLogOptions (quiet ctx)) [r])) w2
          else w2 in
        (if bool_decide (status r = FAILURE) && exit_on_failure self
         then Raise (SystemExit 1) else Val r, w3)
    end.
Proof.
  intros client dir container.
  unfold invoke, get_dir_to_format, dagger.host_directory. fold client.
  unfold mbind at 1. unfold M_bind, bind at 1. cbn beta iota. fold dir. fold container.
  unfold mbind at 1. unfold M_bind, bind at 1.
  destruct (get_format_command_result self client container dir w) as [[r|exc] w1] eqn:Hres;
    [|reflexivity].
  cbv zeta.
  assert (∀ d, output_artifact r = Some d → ∃ t, d = Val t) as Hart
    by (intros d; eapply get_format_command_result_artifact; eassumption).
  unfold mbind, M_bind, bind, log_command_results, log, sys_exit, raise, ret.
  destruct (output_artifact r) as [d|].
  - destruct (Hart d eq_refl) as [t ->].
    destruct (export_formatted_code self).
    + unfold dagger.export, await, mbind, M_bind, bind, ret. cbn beta iota.
      rewrite tree_overlay_dot.
      destruct (enable_logging self); cbn beta iota;
        destruct (bool_decide (status r = FAILURE) && exit_on_failure self); reflexivity.
    + destruct (enable_logging self); cbn beta iota;
        destruct (bool_decide (status r = FAILURE) && exit_on_failure self); reflexivity.
  - destruct (enable_logging self); cbn beta iota;
      destruct (bool_decide (status r = FAILURE) && exit_on_failure self); reflexivity.
Qed.

(** C5.  Once a result has been built, [invoke] ends in [SystemExit(1)]
    exactly when [exit_on_failure] is set and the status is FAILURE; in every
    other combination of the two it does not exit and hands the result
    back. *)
Theorem exit_iff_failure_and_exit_on_failure self ctx pc w r w1 :
  let client := get_dagger_client pc ("Format " ++ value (formatter self)) in
  let dir : dagger.Directory :=
    Val (dagger.host_files client "." (file_filter self) DEFAULT_FORMAT_IGNORE_LIST (host w)) in
  get_format_command_result self client (get_format_container_fn self client dir) dir w
    = (Val r, w1) →
  ((invoke self ctx pc w).1 = Raise (SystemExit 1)
     ↔ exit_on_failure self = true ∧ status r = FAILURE)
  ∧ (∀ code, (invoke self ctx pc w).1 = Raise (SystemExit code) → code = 1)
  ∧ (¬ (exit_on_failure self = true ∧ status r = FAILURE) →
     (invoke self ctx pc w).1 = Val r).
Proof.
  intros client dir Hres. rewrite invoke_unfold. fold client dir. rewrite Hres. cbv zeta.
  cbn [fst]. destruct (exit_on_failure self), (status r);
    rewrite ?bool_decide_true by done; rewrite ?bool_decide_false by done; cbn [andb];
    (split; [split; [try done; by intros [? ?]|try done; by intros [? ?]]
            |split; [by intros code [= <-] || done|try done]]).
  intros Hn. exfalso. by apply Hn.
Qed.

(** C6.  The host files after [invoke] are the artifact written over the
    files that were there, when the export flag is set and a result with an
    artifact was built; in every other case, and whenever the export flag
    is off, they are the files that were there. *)
Theorem host_written_iff_export_and_artifact self ctx pc w :
  let client := get_dagger_client pc ("Format " ++ value (formatter self)) in
  let dir : dagger.Directory :=
    Val (dagger.host_files client "." (file_filter self) DEFAULT_FORMAT_IGNORE_LIST (host w)) in
  host (invoke self ctx pc w).2 =
    if export_formatted_code self then
      match (get_format_command_result self client
               (get_format_container_fn self client dir) dir w).1 with
      | Val r =>
          match output_artifact r with
          | Some (Val t) => t ∪ host w
          | _ => host w
          end
      | Raise _ => host w
      end
    else host w.
Proof.
  intros client dir. rewrite invoke_unfold. fold client dir.
  destruct (get_format_command_result _ _ _ _ _) as [[r|exc] w1] eqn:Hres;
    apply get_format_command_result_host in Hres; cbn [fst snd].
  - cbv zeta. rewrite <- Hres.
    destruct (output_artifact r) as [[t|e]|], (export_formatted_code self),
      (enable_logging self); reflexivity.
  - rewrite Hres. by destruct (export_formatted_code self).
Qed.


(* ===================================================================== *)
(** ** What is diffed: [run_format] *)
(* ===================================================================== *)

Lemma lookup_host_files_dot (c : dagger.Client) (include exclude : list string)
    (h : Tree) (p : string) (f : File) :
  dagger.host_files c "." include exclude h !! p = Some f
    ↔ h !! p = Some f ∧ dagger.selected c include exclude p = true.
Proof.
  unfold dagger.host_files. rewrite tree_at_dot. apply map_lookup_filter_Some.
Qed.

Lemma selected_nonempty (c : dagger.Client) (include exclude : list string) (p : string) :
  include ≠ [] →
  dagger.selected c include exclude p = true
    ↔ (∃ pat, pat ∈ include ∧ dagger.matches c pat p = true)
      ∧ (∀ pat, pat ∈ exclude → dagger.matches c pat p = false).
Proof.
  intros Hne. unfold dagger.selected.
  destruct include as [|pat0 include]; [done|]. cbn [truthy negb orb].
  rewrite andb_true_iff, negb_true_iff, existsb_exists.
  rewrite <- not_true_iff_false, existsb_exists.
  split.
  - intros [(pat & Hin & Hm) Hex]. split.
    + exists pat. by rewrite list_elem_of_In.
    + intros pat' Hin'. apply not_true_iff_false. intros Hm'. apply Hex.
      exists pat'. by rewrite <- list_elem_of_In.
  - intros [(pat & Hin & Hm) Hex]. split.
    + exists pat. by rewrite <- list_elem_of_In.
    + intros (pat' & Hin' & Hm'). apply list_elem_of_In in Hin'.
      by rewrite (Hex pat' Hin') in Hm'.
Qed.

Lemma with_timestamps_contents (d1 d2 : dagger.Directory) (ts : Z) :
  dagger.same_contents_dir d1 d2 → dagger.with_timestamps d1 ts = dagger.with_timestamps d2 ts.
Proof.
  destruct d1 as [t1|e1], d2 as [t2|e2]; cbn; try done.
  - intros E. by rewrite (tree_with_timestamps_contents _ _ _ E).
  - by intros ->.
Qed.

Lemma pre_format_snapshot_contents self client pre pre' (h h' : Tree) :
  same_contents h h' → dagger.same_contents_dir pre pre' →
  dagger.same_contents_dir (pre_format_snapshot self client pre h)
                           (pre_format_snapshot self client pre' h').
Proof.
  intros Hh Hp. unfold pre_format_snapshot.
  destruct (WARM_UP_INCLUSIONS !! formatter self) as [incl|]; [|done].
  destruct (truthy incl); [|done].
  destruct pre as [t|e], pre' as [t'|e']; cbn in *; try done.
  rewrite !tree_overlay_dot. apply same_contents_union; [|done].
  unfold dagger.host_files. rewrite !tree_at_dot.
  by apply same_contents_filter.
Qed.

(** C8.  [run_format] stamps the pre-format snapshot and the formatted
    directory with time 0 and only then takes their diff.  The diff
    therefore holds a file exactly when the formatted directory has it with
    bytes that the snapshot does not have at that path, and it is the same
    for any two trees that have the same bytes at the same paths as these
    two, whatever their modification times.  In particular an invocation
    that differs from this one in modification times only, on the host, in
    the snapshot or in the container, has the same outcome. *)
Theorem timestamps_stamped_before_diff self client container cmds pre w :
  let fc := dagger.with_exec container (sh_dash_c cmds) true in
  let left := dagger.with_timestamps (pre_format_snapshot self client pre (host w)) 0 in
  let right := dagger.with_timestamps (dagger.directory fc REPO_MOUNT_PATH) 0 in
  run_format self client container cmds pre w =
    (d ← dagger.sync (dagger.diff left right);
     out ← await (dagger.stdout fc);
     err ← await (dagger.stderr fc);
     ret (d, out, err)) w
  ∧ (∀ tpre tpost,
       pre_format_snapshot self client pre (host w) = Val tpre →
       dagger.directory fc REPO_MOUNT_PATH = Val tpost →
       ∃ t, dagger.diff left right = Val t
            ∧ (∀ p, t !! p =
                      match tpost !! p with
                      | Some f =>
                          if decide (content <$> tpre !! p = Some (content f))
                          then None else Some (mkFile (content f) 0)
                      | None => None
                      end)
            ∧ (∀ tpre' tpost',
                 same_contents tpre tpre' → same_contents tpost tpost' →
                 tree_diff (tree_with_timestamps tpre' 0) (tree_with_timestamps tpost' 0)
                   = t))
  ∧ (∀ container' pre' w',
       let fc' := dagger.with_exec container' (sh_dash_c cmds) true in
       same_contents (host w) (host w') →
       dagger.same_contents_dir pre pre' →
       dagger.same_contents_dir (dagger.directory fc REPO_MOUNT_PATH)
                                (dagger.directory fc' REPO_MOUNT_PATH) →
       dagger.stdout fc = dagger.stdout fc' →
       dagger.stderr fc = dagger.stderr fc' →
       (run_format self client container' cmds pre' w').1
         = (run_format self client container cmds pre w).1).
Proof.
  intros fc left right. split; [|split].
  - rewrite run_format_unfold. cbv zeta. fold fc left right.
    unfold dagger.sync, await, mbind, M_bind, bind, ret, raise.
    destruct (dagger.diff left right); [|reflexivity].
    destruct (dagger.stdout fc); [|reflexivity].
    destruct (dagger.stderr fc); reflexivity.
  - intros tpre tpost Hpre Hpost. subst left right. rewrite Hpre, Hpost.
    eexists. split; [reflexivity|]. split.
    + intros p. apply lookup_tree_diff_stamped.
    + intros tpre' tpost' E1 E2.
      by rewrite (tree_with_timestamps_contents _ _ _ E1),
                 (tree_with_timestamps_contents _ _ _ E2).
  - intros container' pre' w' fc' Hh Hp Hd Ho He.
    rewrite !run_format_unfold. cbv zeta. fold fc fc'.
    rewrite <- (with_timestamps_contents _ _ 0
                  (pre_format_snapshot_contents self client pre pre' _ _ Hh Hp)).
    rewrite <- (with_timestamps_contents _ _ 0 Hd), <- Ho, <- He.
    destruct (dagger.diff _ _); [|reflexivity].
    destruct (dagger.stdout fc); [|reflexivity].
    destruct (dagger.stderr fc); reflexivity.
Qed.

(** C9.  For a formatter to which [WARM_UP_INCLUSIONS] gives a non-empty
    list, the left side of the diff is the snapshot with the warm-up
    directory written over it, where the warm-up directory holds the host
    files that a pattern of that list matches and no pattern of the ignore
    list matches; the right side is the formatted directory as the
    container gives it.  For a formatter without such a list the left side
    is the snapshot as received. *)
Theorem warm_up_merged_into_pre_snapshot_only self client container cmds pre w :
  let fc := dagger.with_exec container (sh_dash_c cmds) true in
  let diffed (left : dagger.Directory) :=
    (d ← dagger.sync
           (dagger.diff (dagger.with_timestamps left 0)
                        (dagger.with_timestamps (dagger.directory fc REPO_MOUNT_PATH) 0));
     out ← await (dagger.stdout fc);
     err ← await (dagger.stderr fc);
     ret (d, out, err)) w in
  (∀ incl,
     WARM_UP_INCLUSIONS !! formatter self = Some incl → incl ≠ [] →
     let warm := dagger.host_files client "." incl DEFAULT_FORMAT_IGNORE_LIST (host w) in
     run_format self client container cmds pre w
       = diffed (dagger.with_directory pre "." (Val warm))
     ∧ (∀ p f, warm !! p = Some f ↔
               host w !! p = Some f
               ∧ (∃ pat, pat ∈ incl ∧ dagger.matches client pat p = true)
               ∧ (∀ pat, pat ∈ DEFAULT_FORMAT_IGNORE_LIST →
                         dagger.matches client pat p = false))
     ∧ (∀ tpre, pre = Val tpre →
                dagger.with_directory pre "." (Val warm) = Val (warm ∪ tpre)))
  ∧ (WARM_UP_INCLUSIONS !! formatter self = None
     ∨ WARM_UP_INCLUSIONS !! formatter self = Some [] →
     run_format self client container cmds pre w = diffed pre).
Proof.
  intros fc diffed.
  assert (run_format self client container cmds pre w
          = diffed (pre_format_snapshot self client pre (host w))) as Hrun.
  { rewrite run_format_unfold. cbv zeta. fold fc. subst diffed. cbn beta.
    unfold dagger.sync, await, mbind, M_bind, bind, ret, raise.
    destruct (dagger.diff _ _); [|reflexivity].
    destruct (dagger.stdout fc); [|reflexivity].
    destruct (dagger.stderr fc); reflexivity. }
  split.
  - intros incl Hincl Hne warm. split; [|split].
    + rewrite Hrun. unfold pre_format_snapshot. rewrite Hincl.
      by destruct incl.
    + intros p f. subst warm. rewrite lookup_host_files_dot, selected_nonempty by done.
      tauto.
    + intros tpre ->. unfold dagger.with_directory. cbn [dagger.lift2 dagger.lift1].
      by rewrite tree_overlay_dot.
  - intros [Hnone|Hnil]; rewrite Hrun; unfold pre_format_snapshot.
    + by rewrite Hnone.
    + by rewrite Hnil.
Qed.

(* ===================================================================== *)
(** ** The flag setters *)
(* ===================================================================== *)

(** C10.  [disable_logging] gives back the reference it was called on and
    leaves at it an object whose [enable_logging] is [False] and whose other
    attributes are those it had; [dont_exit_on_failure] does the same with
    [exit_on_failure].  No other object of the store changes. *)
Theorem flag_setters_change_one_flag (objs : Objects) (self : positive) (c : FormatCommand) :
  objs !! self = Some c →
  ((disable_logging self objs).1 = self
   ∧ (∃ c', (disable_logging self objs).2 !! self = Some c'
            ∧ enable_logging c' = false
            ∧ exit_on_failure c' = exit_on_failure c
            ∧ name c' = name c ∧ formatter c' = formatter c
            ∧ file_filter c' = file_filter c
            ∧ get_format_container_fn c' = get_format_container_fn c
            ∧ format_commands c' = format_commands c
            ∧ export_formatted_code c' = export_formatted_code c
            ∧ help c' = help c ∧ logger c' = logger c)
   ∧ (∀ o, o ≠ self → (disable_logging self objs).2 !! o = objs !! o))
  ∧ ((dont_exit_on_failure self objs).1 = self
     ∧ (∃ c', (dont_exit_on_failure self objs).2 !! self = Some c'
              ∧ exit_on_failure c' = false
              ∧ enable_logging c' = enable_logging c
              ∧ name c' = name c ∧ formatter c' = formatter c
              ∧ file_filter c' = file_filter c
              ∧ get_format_container_fn c' = get_format_container_fn c
              ∧ format_commands c' = format_commands c
              ∧ export_formatted_code c' = export_formatted_code c
              ∧ help c' = help c ∧ logger c' = logger c)
     ∧ (∀ o, o ≠ self → (dont_exit_on_failure self objs).2 !! o = objs !! o)).
Proof.
  intros Hc. unfold disable_logging, dont_exit_on_failure. cbn [fst snd].
  split; (split; [reflexivity|split]).
  - exists (set_enable_logging false c). rewrite lookup_alter_eq, Hc. by destruct c.
  - intros o Ho. by rewrite lookup_alter_ne.
  - exists (set_exit_on_failure false c). rewrite lookup_alter_eq, Hc. by destruct c.
  - intros o Ho. by rewrite lookup_alter_ne.
Qed.

End properties.

(* ===================================================================== *)
(** ** The statements on the sample invocations *)
(* ===================================================================== *)


Lemma unchanged_tree_gives_success_witness :
  get_format_command_result (K:=sample.consts) (P:=sample.interpreter) sample.checking sample.client
    (sample.idle_container sample.client sample.snapshot) sample.snapshot sample.world
  = (Val sample.success, sample.world).
Proof.
  exact (unchanged_tree_gives_success (K:=sample.consts) (P:=sample.interpreter)
      sample.checking sample.client
           (sample.idle_container sample.client sample.snapshot) sample.snapshot
           sample.world
           (dagger.host_files sample.client "." ["a.txt"] [".git"] sample.host_tree)
           (tree_with_timestamps
              (dagger.host_files sample.client "." ["a.txt"] [".git"] sample.host_tree)
              1700000999)
           "All done!" EmptyString
           ltac:(vm_compute; reflexivity) eq_refl eq_refl eq_refl
           ltac:(vm_compute; reflexivity)).
Defined.



Lemma output_artifact_iff_diff_failure_witness :
  output_artifact sample.failure = Some (Val sample.changes) ↔
    status sample.failure = FAILURE ∧
    ∃ t out err w1,
      run_format (K:=sample.consts) sample.fixing sample.client
        (sample.rewriting_container sample.client sample.snapshot)
        (format_commands sample.fixing) sample.snapshot sample.world
        = (Val (Val sample.changes, out, err), w1)
      ∧ Val sample.changes = Val t ∧ t ≠ ∅.
Proof.
  exact (proj1 (output_artifact_iff_diff_failure (K:=sample.consts) (P:=sample.interpreter)
      sample.fixing
                  sample.client (sample.rewriting_container sample.client sample.snapshot)
                  sample.snapshot sample.world sample.failure
                  (add_log sample.debug_record sample.world)
                  ltac:(vm_compute; reflexivity))
               (Val sample.changes)).
Defined.

Lemma exec_error_is_caught_others_propagate_witness :
  get_format_command_result (K:=sample.consts) (P:=sample.interpreter) sample.crashing sample.client
    (sample.crashing_container sample.client sample.snapshot) sample.snapshot sample.world
  = (Val (mkCommandResult sample.crashing FAILURE (Some EmptyString)
            (Some "sh: fmt: not found") (Some (ExecErr sample.crash)) None),
     sample.world).
Proof.
  exact (exec_error_is_caught_others_propagate (K:=sample.consts) (P:=sample.interpreter)
      sample.crashing
           sample.client (sample.crashing_container sample.client sample.snapshot)
           sample.snapshot sample.world (ExecErr sample.crash) sample.world
           ltac:(vm_compute; reflexivity)).
Defined.

Lemma exit_iff_failure_and_exit_on_failure_witness :
  (invoke (K:=sample.consts) (P:=sample.interpreter) (R:=sample.reporter) sample.fixing sample.ctx
     sample.pipeline_context sample.world).1 = Raise (SystemExit 1)
  ↔ exit_on_failure sample.fixing = true ∧ status sample.failure = FAILURE.
Proof.
  exact (proj1 (exit_iff_failure_and_exit_on_failure (K:=sample.consts) (P:=sample.interpreter)
                  (R:=sample.reporter) sample.fixing sample.ctx sample.pipeline_context
                  sample.world sample.failure (add_log sample.debug_record sample.world)
                  ltac:(vm_compute; reflexivity))).
Defined.



Lemma timestamps_stamped_before_diff_witness :
  ∃ t, dagger.diff
         (dagger.with_timestamps
            (pre_format_snapshot (K:=sample.consts) sample.fixing sample.client
               sample.snapshot (host sample.world)) 0)
         (dagger.with_timestamps
            (dagger.directory
               (dagger.with_exec (sample.rewriting_container sample.client sample.snapshot)
                  (sh_dash_c ["fmt ."]) true)
               (@REPO_MOUNT_PATH sample.consts)) 0) = Val t
       ∧ t !! "a.txt" = Some (mkFile "x = 1" 0)
       ∧ t !! "pyproject.toml" = None.
Proof.
  destruct (proj1 (proj2 (timestamps_stamped_before_diff (K:=sample.consts) sample.fixing
                            sample.client
                            (sample.rewriting_container sample.client sample.snapshot)
                            ["fmt ."] sample.snapshot sample.world))
              (dagger.host_files sample.client "." ["a.txt"] [".git"] sample.host_tree)
              (<["a.txt" := mkFile "x = 1" 1700000999]>
                 (dagger.host_files sample.client "." ["a.txt"] [".git"] sample.host_tree))
              ltac:(vm_compute; reflexivity) eq_refl)
    as (t & Ht & Hlookup & _).
  exists t. split; [exact Ht|]. rewrite !Hlookup. split; vm_compute; reflexivity.
Defined.

Lemma warm_up_merged_into_pre_snapshot_only_witness :
  run_format (K:=sample.consts) sample.warming sample.client
    (sample.warmed_container sample.client sample.snapshot) ["fmt ."]
    sample.snapshot sample.world
  = (Val (Val ∅, "All done!", EmptyString), sample.world).
Proof.
  refine (eq_trans
    (proj1 (proj1 (warm_up_merged_into_pre_snapshot_only (K:=sample.consts) sample.warming
                     sample.client (sample.warmed_container sample.client sample.snapshot)
                     ["fmt ."] sample.snapshot sample.world)
                  ["pyproject.toml"]
                  ltac:(vm_compute; reflexivity) ltac:(discriminate))) _).
  vm_compute. reflexivity.
Defined.

Lemma flag_setters_change_one_flag_witness :
  (disable_logging 1 sample.objects).1 = 1%positive
  ∧ (dont_exit_on_failure 1 sample.objects).1 = 1%positive.
Proof.
  destruct (flag_setters_change_one_flag sample.objects 1 sample.fixing eq_refl)
    as [[E1 _] [E2 _]].
  exact (conj E1 E2).
Defined.

Lemma host_written_iff_export_and_artifact_witness :
  host (invoke (K:=sample.consts) (P:=sample.interpreter)
      (R:=sample.reporter) sample.fixing sample.ctx
          sample.pipeline_context sample.world).2
  = sample.changes ∪ sample.host_tree.
Proof.
  refine (eq_trans
    (host_written_iff_export_and_artifact (K:=sample.consts) (P:=sample.interpreter)
        (R:=sample.reporter)
       sample.fixing sample.ctx sample.pipeline_context sample.world) _).
  vm_compute. reflexivity.
Defined.

(* ===================================================================== *)
(** ** The scenarios of the specification *)
(* ===================================================================== *)

(** Filter [a.txt], the formatter leaves [a.txt] as it is: SUCCESS, no
    artifact, the invocation returns and the host files are untouched. *)
Example scenario_unchanged :
  invoke (K:=sample.consts) (P:=sample.interpreter) (R:=sample.reporter) sample.checking sample.ctx
    sample.pipeline_context sample.world
  = (Val sample.success,
     add_log (mkLog (@main_logger sample.reporter) INFO "Summary of commands results") sample.world).
Proof. vm_compute. reflexivity. Qed.

(** Filter [a.txt], the formatter rewrites [a.txt], export on: FAILURE with
    [a.txt] in the artifact, [a.txt] updated on the host, exit code 1. *)
Example scenario_rewritten_and_exported :
  ∃ w', invoke (K:=sample.consts) (P:=sample.interpreter)
      (R:=sample.reporter) sample.fixing sample.ctx
          sample.pipeline_context sample.world = (Raise (SystemExit 1), w')
        ∧ host w' !! "a.txt" = Some (mkFile "x = 1" 0)
        ∧ host w' !! "pyproject.toml" = sample.host_tree !! "pyproject.toml"
        ∧ log_records w' = [sample.debug_record;
                            mkLog (@main_logger sample.reporter) INFO "Summary of commands results"].
Proof. eexists. split; [vm_compute; reflexivity|]. repeat split; vm_compute; reflexivity. Qed.

(** The same invocation after [dont_exit_on_failure]: the caller gets the
    FAILURE result. *)
Example scenario_rewritten_no_exit :
  (invoke (K:=sample.consts) (P:=sample.interpreter) (R:=sample.reporter)
     (set_exit_on_failure false sample.fixing) sample.ctx
     sample.pipeline_context sample.world).1
  = Val (mkCommandResult (set_exit_on_failure false sample.fixing) FAILURE
           (Some "reformatted a.txt") (Some EmptyString) None (Some (Val sample.changes))).
Proof. vm_compute. reflexivity. Qed.

(** An engine error that is not an execution error leaves [invoke] as it
    was raised. *)
Example scenario_engine_error :
  (invoke (K:=sample.consts) (P:=sample.interpreter) (R:=sample.reporter)
     (sample.command sample.js sample.broken_container true) sample.ctx
     sample.pipeline_context sample.world).1
  = Raise (OtherErr "QueryError").
Proof. vm_compute. reflexivity. Qed.

(** Without the warm-up merge the project file that the container holds
    would be reported as a change: the same container under a formatter
    that has no warm-up files. *)
Example scenario_no_warm_up :
  run_format (K:=sample.consts) (sample.command sample.js sample.warmed_container false)
    sample.client (sample.warmed_container sample.client sample.snapshot) ["fmt ."]
    sample.snapshot sample.world
  = (Val (Val {[ "pyproject.toml" := mkFile "[tool]" 0 ]}, "All done!", EmptyString),
     sample.world).
Proof. vm_compute. reflexivity. Qed.

(* ===================================================================== *)
(** ** Further properties of the methods *)
(* ===================================================================== *)

Lemma string_app_inv_head (s a b : string) : s ++ a = s ++ b → a = b.
Proof.
  induction s as [|c s IH]; cbn; [done|]. intros [= E]. by apply IH.
Qed.

Section further_properties.

Context {K : Consts} {P : Python} {R : Reporter}.

Implicit Types (self : FormatCommand) (w : World) (t : Tree).

(** X1.  The help text of a command is fixed when it is built, it is the
    text [get_help_message] gives for the built command, and two commands
    of one formatter have the same help text exactly when they agree on
    [export_formatted_code]. *)
Theorem help_tells_export (f : Formatter) (ff ff' : list string)
    (fn fn' : dagger.Client → dagger.Directory → dagger.Container)
    (cmds cmds' : list string) (e e' el el' xf xf' : bool) :
  let c := init f ff fn cmds e el xf in
  let c' := init f ff' fn' cmds' e' el' xf' in
  help c = get_help_message c
  ∧ name c = value f
  ∧ (help c = help c' ↔ e = e').
Proof.
  intros c c'. split; [reflexivity|]. split; [reflexivity|].
  subst c c'. unfold init, set_help, get_help_message. cbn [help formatter export_formatted_code].
  split.
  - intros E. destruct e, e'; try done; apply string_app_inv_head in E; discriminate.
  - by intros ->.
Qed.

(** X2.  [get_dir_to_format] never fails and changes nothing.  The directory
    it gives holds a host file, as it is on the host, exactly when no
    pattern of the ignore list matches its path and, unless the file filter
    is empty, some pattern of the filter does. *)
Theorem dir_to_format_selects self (client : dagger.Client) w :
  ∃ t, get_dir_to_format self client w = (Val (Val t), w)
       ∧ ∀ p f, t !! p = Some f ↔
                host w !! p = Some f
                ∧ (file_filter self = []
                   ∨ ∃ pat, pat ∈ file_filter self ∧ dagger.matches client pat p = true)
                ∧ (∀ pat, pat ∈ DEFAULT_FORMAT_IGNORE_LIST →
                          dagger.matches client pat p = false).
Proof.
  eexists. split; [reflexivity|]. intros p f.
  rewrite lookup_host_files_dot.
  destruct (file_filter self) as [|pat0 l] eqn:Hff.
  - unfold dagger.selected. cbn [truthy negb orb existsb andb].
    rewrite negb_true_iff, <- not_true_iff_false, existsb_exists. split.
    + intros [Hh Hex]. split; [done|]. split; [by left|].
      intros pat Hin. apply not_true_iff_false. intros Hm. apply Hex.
      exists pat. by rewrite <- list_elem_of_In.
    + intros (Hh & _ & Hex). split; [done|]. intros (pat & Hin & Hm).
      apply list_elem_of_In in Hin. by rewrite (Hex pat Hin) in Hm.
  - rewrite selected_nonempty by done. split.
    + intros (Hh & Hin & Hex). split; [done|]. split; [by right|done].
    + intros (Hh & [?|Hin] & Hex); done.
Qed.

Lemma selected_not_excluded (c : dagger.Client) (include exclude : list string)
    (p pat : string) :
  dagger.selected c include exclude p = true → pat ∈ exclude →
  dagger.matches c pat p = false.
Proof.
  unfold dagger.selected. rewrite andb_true_iff, negb_true_iff.
  intros [_ Hex] Hin. apply not_true_iff_false. intros Hm.
  apply not_true_iff_false in Hex. apply Hex, existsb_exists.
  exists pat. by rewrite <- list_elem_of_In.
Qed.

(** X3.  In an invocation the snapshot and the warm-up files are read from
    the same host files, so the merge only adds files: every file to format
    is on the left side of the diff as it is on the host, and the left side
    holds nothing but host files that no pattern of the ignore list
    matches. *)
Theorem warm_up_keeps_files_to_format self (client : dagger.Client) (h : Tree) :
  let to_format :=
    dagger.host_files client "." (file_filter self) DEFAULT_FORMAT_IGNORE_LIST h in
  ∃ t, pre_format_snapshot self client (Val to_format) h = Val t
       ∧ (∀ p f, to_format !! p = Some f → t !! p = Some f)
       ∧ (∀ p f, t !! p = Some f →
                 h !! p = Some f
                 ∧ ∀ pat, pat ∈ DEFAULT_FORMAT_IGNORE_LIST →
                          dagger.matches client pat p = false).
Proof.
  intros to_format.
  assert (∀ p f, to_format !! p = Some f →
                 h !! p = Some f
                 ∧ ∀ pat, pat ∈ DEFAULT_FORMAT_IGNORE_LIST →
                          dagger.matches client pat p = false) as Hbase.
  { intros p f [Hh Hs]%lookup_host_files_dot. split; [done|].
    intros pat. by apply selected_not_excluded with (include := file_filter self). }
  unfold pre_format_snapshot.
  destruct (WARM_UP_INCLUSIONS !! formatter self) as [incl|];
    [destruct (truthy incl)|];
    try (exists to_format; split; [reflexivity|]; split; [by intros|exact Hbase]).
  cbn [dagger.with_directory dagger.lift2 dagger.lift1]. rewrite tree_overlay_dot.
  eexists. split; [reflexivity|]. split.
  - intros p f Hf. apply lookup_union_Some_raw.
    destruct (dagger.host_files client "." incl DEFAULT_FORMAT_IGNORE_LIST h !! p)
      as [g|] eqn:Hg.
    + left. apply lookup_host_files_dot in Hg as [Hg _].
      apply Hbase in Hf as [Hf _]. congruence.
    + by right.
  - intros p f [Hw|[_ Hb]]%lookup_union_Some_raw; [|by apply Hbase].
    apply lookup_host_files_dot in Hw as [Hh Hs]. split; [done|].
    intros pat. by apply selected_not_excluded with (include := incl).
Qed.

(** X4.  Once a result has been built, [invoke] logs the summary of that
    one result on the main logger, with the [quiet] option of the context,
    exactly when [enable_logging] is set, and logs nothing else; this
    holds also when the invocation then exits. *)
Theorem summary_logged_iff_enabled self ctx pc w r w1 :
  let client := get_dagger_client pc ("Format " ++ value (formatter self)) in
  let dir : dagger.Directory :=
    Val (dagger.host_files client "." (file_filter self) DEFAULT_FORMAT_IGNORE_LIST (host w)) in
  get_format_command_result self client (get_format_container_fn self client dir) dir w
    = (Val r, w1) →
  log_records (invoke self ctx pc w).2 =
    (log_records w1 ++
     (if enable_logging self
      then [mkLog main_logger INFO (summary (mkLogOptions (quiet ctx)) [r])]
      else []))%list.
Proof.
  intros client dir Hres. rewrite invoke_unfold. fold client dir. rewrite Hres.
  cbv zeta. cbn [snd].
  destruct (output_artifact r) as [[t|e]|], (export_formatted_code self),
    (enable_logging self); cbn [log_records add_log set_host];
    by rewrite ?app_nil_r.
Qed.

(** X5.  When [get_format_command_result] raises, [invoke] raises the same
    exception and the world is as it was before the invocation: nothing is
    exported, nothing is logged, and the exit check is not reached. *)
Theorem engine_error_leaves_world self ctx pc w exc w1 :
  let client := get_dagger_client pc ("Format " ++ value (formatter self)) in
  let dir : dagger.Directory :=
    Val (dagger.host_files client "." (file_filter self) DEFAULT_FORMAT_IGNORE_LIST (host w)) in
  get_format_command_result self client (get_format_container_fn self client dir) dir w
    = (Raise exc, w1) →
  invoke self ctx pc w = (Raise exc, w) ∧ (∀ e, exc ≠ ExecErr e).
Proof.
  intros client dir Hres. rewrite invoke_unfold. fold client dir. rewrite Hres.
  revert Hres. rewrite get_format_command_result_unfold.
  destruct (run_format _ _ _ _ _ _) as [[[[[t|exc'] out] err]|exc'] w2] eqn:Hrun;
    apply run_format_world in Hrun; subst w2.
  - by case_bool_decide.
  - destruct exc'; [done|intros [= <- <-]; by split..].
  - destruct exc'; [done|intros [= <- <-]; by split..].
Qed.

(** X6.  [get_format_command_result] leaves the host files as they are, and
    it logs at most one record: a DEBUG record on the logger of the
    command, and only together with a FAILURE result that carries an
    artifact. *)
Theorem result_building_only_logs_debug self client container pre w o w' :
  get_format_command_result self client container pre w = (o, w') →
  host w' = host w
  ∧ (log_records w' = log_records w
     ∨ ∃ msg r, log_records w' = (log_records w ++ [mkLog (logger self) DEBUG msg])%list
                ∧ o = Val r ∧ status r = FAILURE ∧ is_Some (output_artifact r)).
Proof.
  rewrite get_format_command_result_unfold.
  destruct (run_format _ _ _ _ _ _) as [[[[[t|exc] out] err]|exc] w1] eqn:Hrun;
    apply run_format_world in Hrun; subst w1.
  - case_bool_decide; intros [= <- <-]; (split; [done|]); [right|by left].
    eexists _, _. by repeat split.
  - destruct exc; intros [= <- <-]; (split; [done|by left]).
  - destruct exc; intros [= <- <-]; (split; [done|by left]).
Qed.

(** X7.  The streams are read after the diff has been evaluated.  When the
    engine reports the execution error only at that point, on the output
    stream or, the output stream read, on the error stream, the result is
    the FAILURE result of the error: the diff that was evaluated is not
    attached and nothing is logged, whatever the diff holds. *)
Theorem stream_error_drops_artifact self client container pre w t e :
  let fc := dagger.with_exec container (sh_dash_c (format_commands self)) true in
  dagger.diff
    (dagger.with_timestamps (pre_format_snapshot self client pre (host w)) 0)
    (dagger.with_timestamps (dagger.directory fc REPO_MOUNT_PATH) 0) = Val t →
  dagger.stdout fc = Raise (ExecErr e)
  ∨ (∃ out, dagger.stdout fc = Val out ∧ dagger.stderr fc = Raise (ExecErr e)) →
  get_format_command_result self client container pre w =
    (Val (mkCommandResult self FAILURE (Some (ExecError.stdout e))
            (Some (ExecError.stderr e)) (Some (ExecErr e)) None), w).
Proof.
  intros fc Hdiff Hstream.
  rewrite get_format_command_result_unfold, run_format_unfold. cbv zeta. fold fc.
  rewrite Hdiff. destruct Hstream as [->|(out & -> & ->)]; reflexivity.
Qed.

(** X8.  The two flag setters can be chained in either order and each can
    be repeated: the store is the same.  Chained on an object, they give
    back its reference and leave it with both flags [False]. *)
Theorem setters_compose (objs : Objects) (self : positive) (c : FormatCommand) :
  objs !! self = Some c →
  let both := dont_exit_on_failure (disable_logging self objs).1
                (disable_logging self objs).2 in
  both = disable_logging (dont_exit_on_failure self objs).1 (dont_exit_on_failure self objs).2
  ∧ disable_logging (disable_logging self objs).1 (disable_logging self objs).2
      = disable_logging self objs
  ∧ dont_exit_on_failure (dont_exit_on_failure self objs).1 (dont_exit_on_failure self objs).2
      = dont_exit_on_failure self objs
  ∧ both.1 = self
  ∧ both.2 !! self = Some (set_exit_on_failure false (set_enable_logging false c)).
Proof.
  intros Hc both. subst both. unfold disable_logging, dont_exit_on_failure. cbn [fst snd].
  repeat split.
  - f_equal. apply map_eq. intros j. destruct (decide (self = j)) as [<-|Hj].
    + rewrite !lookup_alter_eq, Hc. reflexivity.
    + by rewrite !lookup_alter_ne.
  - f_equal. apply map_eq. intros j. destruct (decide (self = j)) as [<-|Hj].
    + rewrite !lookup_alter_eq, Hc. reflexivity.
    + by rewrite !lookup_alter_ne.
  - f_equal. apply map_eq. intros j. destruct (decide (self = j)) as [<-|Hj].
    + rewrite !lookup_alter_eq, Hc. reflexivity.
    + by rewrite !lookup_alter_ne.
  - by rewrite !lookup_alter_eq, Hc.
Qed.

(** X9.  Every result that [get_format_command_result] returns is of one of
    three kinds, told apart by what [run_format] did: SUCCESS, when it
    returned a directory without a file; FAILURE with that directory as
    artifact, when it returned a directory with a file; FAILURE with the
    error as [exc_info], when it raised an execution error.  The result
    names the command, and its output and error text are those that
    [run_format] returned, or those of the error. *)
Theorem result_classification self client container pre w r w' :
  get_format_command_result self client container pre w = (Val r, w') →
  command r = self
  ∧ ((status r = SUCCESS ∧ exc_info r = None ∧ output_artifact r = None
      ∧ ∃ out err,
          run_format self client container (format_commands self) pre w
            = (Val (Val ∅, out, err), w)
          ∧ stdout r = Some out ∧ stderr r = Some err)
     ∨ (status r = FAILURE ∧ exc_info r = None
        ∧ ∃ t out err,
            t ≠ ∅
            ∧ run_format self client container (format_commands self) pre w
                = (Val (Val t, out, err), w)
            ∧ output_artifact r = Some (Val t)
            ∧ stdout r = Some out ∧ stderr r = Some err)
     ∨ (status r = FAILURE ∧ output_artifact r = None
        ∧ ∃ e,
            run_format self client container (format_commands self) pre w
              = (Raise (ExecErr e), w)
            ∧ exc_info r = Some (ExecErr e)
            ∧ stdout r = Some (ExecError.stdout e)
            ∧ stderr r = Some (ExecError.stderr e))).
Proof.
  rewrite get_format_command_result_unfold.
  destruct (run_format _ _ _ _ _ _) as [[[[d out] err]|exc] w1] eqn:Hrun.
  - destruct (run_format_returns _ _ _ _ _ _ _ _ _ _ Hrun) as (-> & _ & _ & t & -> & _).
    case_bool_decide as Ht; intros [= <- <-]; (split; [reflexivity|]).
    + right; left. cbn. repeat split. by exists t, out, err.
    + left. cbn. repeat split. exists out, err.
      by subst t.
  - pose proof (run_format_world _ _ _ _ _ _ _ _ Hrun) as ->.
    destruct exc; [|done..]. intros [= <- <-]. split; [reflexivity|].
    right; right. cbn. repeat split. by eexists.
Qed.

(** A result carries as artifact the directory that [run_format] returned. *)
Lemma artifact_is_returned_diff self client container pre w r w' t :
  get_format_command_result self client container pre w = (Val r, w') →
  output_artifact r = Some (Val t) →
  ∃ out err,
    run_format self client container (format_commands self) pre w
      = (Val (Val t, out, err), w).
Proof.
  rewrite get_format_command_result_unfold.
  destruct (run_format _ _ _ _ _ _) as [[[[[t'|exc] out] err]|exc] w1] eqn:Hrun;
    apply run_format_world in Hrun; subst w1.
  - case_bool_decide; intros [= <- <-]; cbn [output_artifact]; [|done].
    intros [= ->]. by exists out, err.
  - destruct exc; try done. by intros [= <- <-].
  - destruct exc; try done. by intros [= <- <-].
Qed.

(** X10.  [invoke] removes no file from the host, and a file that is on the
    host after the invocation was there before, or the export flag is set
    and the file has the bytes that the formatted directory of the
    container has at that path. *)
Theorem export_writes_formatted_files_only self ctx pc w :
  let client := get_dagger_client pc ("Format " ++ value (formatter self)) in
  let dir : dagger.Directory :=
    Val (dagger.host_files client "." (file_filter self) DEFAULT_FORMAT_IGNORE_LIST (host w)) in
  let fc := dagger.with_exec (get_format_container_fn self client dir)
              (sh_dash_c (format_commands self)) true in
  (∀ p, is_Some (host w !! p) → is_Some (host (invoke self ctx pc w).2 !! p))
  ∧ (∀ p g, host (invoke self ctx pc w).2 !! p = Some g →
            host w !! p = Some g
            ∨ (export_formatted_code self = true
               ∧ ∃ tpost g', dagger.directory fc REPO_MOUNT_PATH = Val tpost
                             ∧ tpost !! p = Some g' ∧ content g = content g')).
Proof.
  intros client dir fc. rewrite invoke_unfold. fold client dir.
  destruct (get_format_command_result _ _ _ _ _) as [[r|exc] w1] eqn:Hres;
    pose proof (get_format_command_result_host _ _ _ _ _ _ _ Hres) as Hhost; cbn [snd];
    [|rewrite Hhost; split; [done|by left]].
  cbv zeta.
  assert (∀ w2, host (if enable_logging self
                      then add_log (mkLog main_logger INFO
                                      (summary (mkLogOptions (quiet ctx)) [r])) w2
                      else w2) = host w2) as -> by (intros; by destruct (enable_logging self)).
  destruct (output_artifact r) as [[t|e]|] eqn:Hart;
    [destruct (export_formatted_code self) eqn:Hexp|..];
    try (rewrite Hhost; split; [done|by left]).
  cbn [host set_host]. rewrite Hhost. split.
  - intros p [f Hf]. destruct (t !! p) as [g|] eqn:Hg.
    + exists g. by apply lookup_union_Some_l.
    + exists f. rewrite lookup_union_r; done.
  - intros p g [Ht|[_ Hh]]%lookup_union_Some_raw; [right|by left].
    split; [done|].
    destruct (artifact_is_returned_diff _ _ _ _ _ _ _ _ Hres Hart) as (out & err & Hrun).
    destruct (run_format_returns _ _ _ _ _ _ _ _ _ _ Hrun) as (_ & _ & _ & t' & [= <-] & Hdiff).
    cbv zeta in Hdiff. fold fc in Hdiff.
    destruct (pre_format_snapshot self client dir (host w)) as [tpre|]; [|done].
    destruct (dagger.directory fc REPO_MOUNT_PATH) as [tpost|]; [|done].
    cbn in Hdiff. injection Hdiff as <-.
    rewrite lookup_tree_diff_stamped in Ht.
    destruct (tpost !! p) as [g'|] eqn:Hg'; [|done].
    case_decide; [done|]. injection Ht as <-. by exists tpost, g'.
Qed.

End further_properties.

(* ===================================================================== *)
(** ** The further properties on the sample invocations *)
(* ===================================================================== *)


Lemma summary_logged_iff_enabled_witness :
  log_records (invoke (K:=sample.consts) (P:=sample.interpreter)
      (R:=sample.reporter) sample.fixing sample.ctx
                 sample.pipeline_context sample.world).2
  = [sample.debug_record; mkLog (@main_logger sample.reporter) INFO "Summary of commands results"].
Proof.
  refine (eq_trans
    (summary_logged_iff_enabled (K:=sample.consts) (P:=sample.interpreter)
        (R:=sample.reporter) sample.fixing
       sample.ctx sample.pipeline_context sample.world sample.failure
       (add_log sample.debug_record sample.world) ltac:(vm_compute; reflexivity)) _).
  vm_compute. reflexivity.
Defined.

Lemma engine_error_leaves_world_witness :
  invoke (K:=sample.consts) (P:=sample.interpreter) (R:=sample.reporter) sample.broken sample.ctx
    sample.pipeline_context sample.world
  = (Raise (OtherErr "QueryError"), sample.world).
Proof.
  exact (proj1 (engine_error_leaves_world (K:=sample.consts) (P:=sample.interpreter)
      (R:=sample.reporter)
                  sample.broken sample.ctx sample.pipeline_context sample.world
                  (OtherErr "QueryError") sample.world ltac:(vm_compute; reflexivity))).
Defined.

Lemma result_building_only_logs_debug_witness :
  host (add_log sample.debug_record sample.world) = host sample.world
  ∧ (log_records (add_log sample.debug_record sample.world) = log_records sample.world
     ∨ ∃ msg r,
         log_records (add_log sample.debug_record sample.world)
           = (log_records sample.world ++ [mkLog (logger sample.fixing) DEBUG msg])%list
         ∧ Val sample.failure = Val r ∧ status r = FAILURE ∧ is_Some (output_artifact r)).
Proof.
  exact (result_building_only_logs_debug (K:=sample.consts) (P:=sample.interpreter)
      sample.fixing sample.client
           (sample.rewriting_container sample.client sample.snapshot) sample.snapshot
           sample.world (Val sample.failure) (add_log sample.debug_record sample.world)
           ltac:(vm_compute; reflexivity)).
Defined.

Lemma stream_error_drops_artifact_witness :
  get_format_command_result (K:=sample.consts) (P:=sample.interpreter)
      sample.stream_failing sample.client
    (sample.stream_failing_container sample.client sample.snapshot) sample.snapshot
    sample.world
  = (Val (mkCommandResult sample.stream_failing FAILURE (Some EmptyString)
            (Some "sh: fmt: not found") (Some (ExecErr sample.crash)) None),
     sample.world).
Proof.
  exact (stream_error_drops_artifact (K:=sample.consts) (P:=sample.interpreter)
      sample.stream_failing sample.client
           (sample.stream_failing_container sample.client sample.snapshot) sample.snapshot
           sample.world sample.changes sample.crash
           ltac:(vm_compute; reflexivity) (or_introl eq_refl)).
Defined.

Lemma setters_compose_witness :
  (dont_exit_on_failure (disable_logging 1 sample.objects).1
     (disable_logging 1 sample.objects).2).1 = 1%positive
  ∧ (dont_exit_on_failure (disable_logging 1 sample.objects).1
       (disable_logging 1 sample.objects).2).2 !! 1%positive
    = Some (set_exit_on_failure false (set_enable_logging false sample.fixing)).
Proof.
  exact (proj2 (proj2 (proj2 (setters_compose sample.objects 1 sample.fixing eq_refl)))).
Defined.

Lemma result_classification_witness : command sample.failure = sample.fixing.
Proof.
  exact (proj1 (result_classification (K:=sample.consts) (P:=sample.interpreter)
      sample.fixing sample.client
                  (sample.rewriting_container sample.client sample.snapshot)
                  sample.snapshot sample.world sample.failure
                  (add_log sample.debug_record sample.world)
                  ltac:(vm_compute; reflexivity))).
Defined.

Lemma export_writes_formatted_files_only_witness :
  is_Some (host (invoke (K:=sample.consts) (P:=sample.interpreter)
      (R:=sample.reporter) sample.fixing sample.ctx
                   sample.pipeline_context sample.world).2 !! ".git").
Proof.
  exact (proj1 (export_writes_formatted_files_only (K:=sample.consts) (P:=sample.interpreter)
      (R:=sample.reporter)
                  sample.fixing sample.ctx sample.pipeline_context sample.world)
               ".git" ltac:(vm_compute; eauto)).
Defined.
